(** * VFS options: defaults and [Init]

  A shallow embedding of [vfs/vfscommon/options.go]: the [Options]
  record, the default value [DefaultOpt], and the in-place normaliser
  [Options.Init] with its helper [initializeExclusionPatterns].

  Go values are modelled as follows.
  - [int], [int64] based types ([time.Duration], [fs.SizeSuffix]) and
    [uint32] based types ([os.FileMode], uid, gid) are [Z]; every
    conversion to [uint32] and the [uint32] complement write their
    wrap-around out.
  - slices are lists, [append] is [++] with a singleton.
  - the two calls that leave the package, [filter.GlobToRegexp] and
    [fs.Errorf], are recorded as events on a trace threaded through a
    small state monad; the translator itself is a parameter. *)

From Stdlib Require Import ZArith List String Bool Lia.
Import ListNotations.
Local Open Scope Z_scope.

(** ** Machine integers *)

Module Go.

(** Truncation of an integer to an unsigned 32-bit value. *)
Definition uint32 (z : Z) : Z := z mod 2 ^ 32.

(** [^x] on a [uint32]. *)
Definition not32 (x : Z) : Z := uint32 (Z.lnot x).

(** [a == b] on strings. *)
Definition streq (a b : string) : bool := String.eqb a b.

End Go.

(** ** The parts of the Go standard library the file uses *)

Module os.

(** [type FileMode uint32] *)
Definition FileMode := Z.

(** The conversion [os.FileMode(i)] of an [int]. *)
Definition FileMode_of_int (i : Z) : FileMode := Go.uint32 i.

(** [ModeDir FileMode = 1 << (32 - 1 - iota)], with [iota = 0]. *)
Definition ModeDir : FileMode := Z.shiftl 1 (32 - 1 - 0).

End os.

Module time.

(** [type Duration int64], counted in nanoseconds. *)
Definition Duration := Z.

Definition Nanosecond : Duration := 1.
Definition Microsecond : Duration := 1000 * Nanosecond.
Definition Millisecond : Duration := 1000 * Microsecond.
Definition Second : Duration := 1000 * Millisecond.
Definition Minute : Duration := 60 * Second.

End time.

Module fs.

(** [type SizeSuffix int64] *)
Definition SizeSuffix := Z.

End fs.

(** Modelled from the spec: the declaration of [CacheMode] lives in another
  file of the package; the spec lists its values as off, minimal, writes
  and full. *)
Inductive CacheMode : Type :=
| CacheModeOff
| CacheModeMinimal
| CacheModeWrites
| CacheModeFull.

(** Octal literals, most significant digit first: [oct [7;5;5]] is [0755]. *)
Definition oct (digits : list Z) : Z :=
  fold_left (fun acc d => 8 * acc + d) digits 0.

(** A stand-in for the glob translator, for concrete runs: it rejects the
    glob that is a lone opening bracket and returns every other glob as
    its own compiled form. *)
Module Sample.

Definition GlobToRegexp (glob : string) (flag : bool) : string + string :=
  if String.eqb glob "[" then inr "missing closing bracket"%string
  else inl glob.

(** [fs.Mebi] is [1 << 20]. *)
Definition Mebi : fs.SizeSuffix := Z.shiftl 1 20.

End Sample.

Section Options.

#[local] Set Default Proof Using "Type".

(** [*regexp.Regexp] and [error] are opaque to this package. *)
Context {Regexp : Type}.
Context {error : Type}.

(** [filter.GlobToRegexp], the external glob translator: it returns a
    compiled pattern ([inl]) or an error ([inr]). *)
Variable GlobToRegexp : string -> bool -> Regexp + error.

(** [runtime.GOOS], fixed at build time. *)
Variable GOOS : string.

(** [fs.Mebi], a constant of the [fs] package. *)
Variable Mebi : fs.SizeSuffix.

(** Options is options for creating the vfs *)
Record Options : Type := mkOptions {
  NoSeek             : bool;
  NoChecksum         : bool;
  ReadOnly           : bool;
  NoModTime          : bool;
  DirCacheTime       : time.Duration;
  PollInterval       : time.Duration;
  Umask              : Z;
  UID                : Z;
  GID                : Z;
  DirPerms           : os.FileMode;
  FilePerms          : os.FileMode;
  ChunkSize          : fs.SizeSuffix;
  ChunkSizeLimit     : fs.SizeSuffix;
  CacheMode_         : CacheMode;
  CacheMaxAge        : time.Duration;
  CacheMaxSize       : fs.SizeSuffix;
  CacheMinFreeSpace  : fs.SizeSuffix;
  CachePollInterval  : time.Duration;
  CaseInsensitive    : bool;
  WriteWait          : time.Duration;
  ReadWait           : time.Duration;
  WriteBack          : time.Duration;
  ReadAhead          : fs.SizeSuffix;
  UsedIsSize         : bool;
  FastFingerprint    : bool;
  DiskSpaceTotalSize : fs.SizeSuffix;
  VfsUploadExclude   : list string;
  VfsExcludeRegex    : list Regexp
}.

(** Assignments to the three fields that [Init] writes. *)

Definition set_DirPerms (opt : Options) (v : os.FileMode) : Options :=
  mkOptions
    (NoSeek opt) (NoChecksum opt) (ReadOnly opt) (NoModTime opt)
    (DirCacheTime opt) (PollInterval opt) (Umask opt) (UID opt) (GID opt)
    v (FilePerms opt)
    (ChunkSize opt) (ChunkSizeLimit opt) (CacheMode_ opt) (CacheMaxAge opt)
    (CacheMaxSize opt) (CacheMinFreeSpace opt) (CachePollInterval opt)
    (CaseInsensitive opt) (WriteWait opt) (ReadWait opt) (WriteBack opt)
    (ReadAhead opt) (UsedIsSize opt) (FastFingerprint opt)
    (DiskSpaceTotalSize opt) (VfsUploadExclude opt) (VfsExcludeRegex opt).

Definition set_FilePerms (opt : Options) (v : os.FileMode) : Options :=
  mkOptions
    (NoSeek opt) (NoChecksum opt) (ReadOnly opt) (NoModTime opt)
    (DirCacheTime opt) (PollInterval opt) (Umask opt) (UID opt) (GID opt)
    (DirPerms opt) v
    (ChunkSize opt) (ChunkSizeLimit opt) (CacheMode_ opt) (CacheMaxAge opt)
    (CacheMaxSize opt) (CacheMinFreeSpace opt) (CachePollInterval opt)
    (CaseInsensitive opt) (WriteWait opt) (ReadWait opt) (WriteBack opt)
    (ReadAhead opt) (UsedIsSize opt) (FastFingerprint opt)
    (DiskSpaceTotalSize opt) (VfsUploadExclude opt) (VfsExcludeRegex opt).

Definition set_VfsExcludeRegex (opt : Options) (v : list Regexp) : Options :=
  mkOptions
    (NoSeek opt) (NoChecksum opt) (ReadOnly opt) (NoModTime opt)
    (DirCacheTime opt) (PollInterval opt) (Umask opt) (UID opt) (GID opt)
    (DirPerms opt) (FilePerms opt)
    (ChunkSize opt) (ChunkSizeLimit opt) (CacheMode_ opt) (CacheMaxAge opt)
    (CacheMaxSize opt) (CacheMinFreeSpace opt) (CachePollInterval opt)
    (CaseInsensitive opt) (WriteWait opt) (ReadWait opt) (WriteBack opt)
    (ReadAhead opt) (UsedIsSize opt) (FastFingerprint opt)
    (DiskSpaceTotalSize opt) (VfsUploadExclude opt) v.

(** DefaultOpt is the default values uses for Opt.  Fields the literal
    does not name ([FastFingerprint], [VfsUploadExclude],
    [VfsExcludeRegex]) take their zero value. *)
Definition DefaultOpt : Options := {|
  NoModTime          := false;
  NoChecksum         := false;
  NoSeek             := false;
  DirCacheTime       := 5 * 60 * time.Second;
  PollInterval       := time.Minute;
  ReadOnly           := false;
  Umask              := 0;
  UID                := Go.not32 (Go.uint32 0);
  GID                := Go.not32 (Go.uint32 0);
  DirPerms           := Go.uint32 (oct [0; 7; 7; 7]);
  FilePerms          := Go.uint32 (oct [0; 6; 6; 6]);
  CacheMode_         := CacheModeOff;
  CacheMaxAge        := 3600 * time.Second;
  CachePollInterval  := 60 * time.Second;
  ChunkSize          := 128 * Mebi;
  ChunkSizeLimit     := -1;
  CacheMaxSize       := -1;
  CacheMinFreeSpace  := -1;
  CaseInsensitive    := Go.streq GOOS "windows" || Go.streq GOOS "darwin";
  WriteWait          := 1000 * time.Millisecond;
  ReadWait           := 20 * time.Millisecond;
  WriteBack          := 5 * time.Second;
  ReadAhead          := 0 * Mebi;
  UsedIsSize         := false;
  DiskSpaceTotalSize := -1;
  FastFingerprint    := false;
  VfsUploadExclude   := [];
  VfsExcludeRegex    := []
|}.

(** ** Calls that leave the package

    A computation threads the trace of external calls made so far. *)

Inductive event : Type :=
| CallGlobToRegexp (glob : string) (flag : bool)
| CallErrorf (o : string) (format : string) (arg : error).

Definition M (A : Type) : Type := list event -> A * list event.

Definition ret {A : Type} (a : A) : M A := fun tr => (a, tr).

Definition bind {A B : Type} (m : M A) (k : A -> M B) : M B :=
  fun tr => let (a, tr') := m tr in k a tr'.

Notation "x <- m ;; k" := (bind m (fun x => k))
  (at level 61, m at next level, right associativity).
Notation "m ;;; k" := (bind m (fun _ => k))
  (at level 61, right associativity).

(** [filter.GlobToRegexp(glob, flag)] *)
Definition filter_GlobToRegexp (glob : string) (flag : bool)
  : M (Regexp + error) :=
  fun tr => (GlobToRegexp glob flag, tr ++ [CallGlobToRegexp glob flag]).

(** [fs.Errorf(o, format, arg)] *)
Definition fs_Errorf (o : string) (format : string) (arg : error) : M unit :=
  fun tr => (tt, tr ++ [CallErrorf o format arg]).

Definition errorf_format : string :=
  "Could not generate regex from glob for VFS cache exclusion: %v".

(** The body of [for _, pattern := range opt.VfsUploadExclude].  The
    ranged slice is evaluated once, before the first iteration; [opt] is
    the record behind the pointer. *)
Fixpoint range_VfsUploadExclude (patterns : list string) (opt : Options)
  : M Options :=
  match patterns with
  | [] => ret opt
  | pattern :: rest =>
      r <- filter_GlobToRegexp pattern true ;;
      match r with
      | inr err =>
          fs_Errorf pattern errorf_format err ;;;
          range_VfsUploadExclude rest opt
      | inl regexPattern =>
          range_VfsUploadExclude rest
            (set_VfsExcludeRegex opt (VfsExcludeRegex opt ++ [regexPattern]))
      end
  end.

Definition initializeExclusionPatterns (opt : Options) : M Options :=
  range_VfsUploadExclude (VfsUploadExclude opt) opt.

(** Init the options, making sure everything is within range *)
Definition Init (opt : Options) : M Options :=
  (* Mask the permissions with the umask *)
  let opt := set_DirPerms opt
    (Z.land (DirPerms opt) (Go.not32 (os.FileMode_of_int (Umask opt)))) in
  let opt := set_FilePerms opt
    (Z.land (FilePerms opt) (Go.not32 (os.FileMode_of_int (Umask opt)))) in
  (* Make sure directories are returned as directories *)
  let opt := set_DirPerms opt (Z.lor (DirPerms opt) os.ModeDir) in
  initializeExclusionPatterns opt.

(** The record a computation returns and the calls it adds to the trace
    [tr] it is started on. *)
Definition result_of {A : Type} (m : M A) (tr : list event) : A := fst (m tr).

Definition emitted {A : Type} (m : M A) (tr : list event) : list event :=
  skipn (List.length tr) (snd (m tr)).

(** Two calls of [Init] on the same record, one after the other. *)
Definition Init_twice (opt : Options) : M Options :=
  opt1 <- Init opt ;; Init opt1.

(** ** Reading a trace *)

(** The translator calls of a trace, with the flag each one passed. *)
Fixpoint translator_calls (tr : list event) : list (string * bool) :=
  match tr with
  | [] => []
  | CallGlobToRegexp glob flag :: rest => (glob, flag) :: translator_calls rest
  | CallErrorf _ _ _ :: rest => translator_calls rest
  end.

(** The diagnostics of a trace. *)
Fixpoint diagnostics (tr : list event) : list (string * string * error) :=
  match tr with
  | [] => []
  | CallGlobToRegexp _ _ :: rest => diagnostics rest
  | CallErrorf o format arg :: rest => (o, format, arg) :: diagnostics rest
  end.




(** ** What one glob contributes *)

(** Whether the translator accepts a glob, under the flag [Init] passes. *)
Definition compiles (glob : string) : bool :=
  match GlobToRegexp glob true with
  | inl _ => true
  | inr _ => false
  end.

(** The patterns appended for one glob: one or none. *)
Definition compiled (glob : string) : list Regexp :=
  match GlobToRegexp glob true with
  | inl regexPattern => [regexPattern]
  | inr _ => []
  end.

(** The calls made for one glob. *)
Definition calls_for (glob : string) : list event :=
  CallGlobToRegexp glob true ::
  match GlobToRegexp glob true with
  | inl _ => []
  | inr err => [CallErrorf glob errorf_format err]
  end.

(** A record with another umask, as a caller overriding the default sets
    it. *)
Definition set_Umask (opt : Options) (v : Z) : Options :=
  mkOptions
    (NoSeek opt) (NoChecksum opt) (ReadOnly opt) (NoModTime opt)
    (DirCacheTime opt) (PollInterval opt) v (UID opt) (GID opt)
    (DirPerms opt) (FilePerms opt)
    (ChunkSize opt) (ChunkSizeLimit opt) (CacheMode_ opt) (CacheMaxAge opt)
    (CacheMaxSize opt) (CacheMinFreeSpace opt) (CachePollInterval opt)
    (CaseInsensitive opt) (WriteWait opt) (ReadWait opt) (WriteBack opt)
    (ReadAhead opt) (UsedIsSize opt) (FastFingerprint opt)
    (DiskSpaceTotalSize opt) (VfsUploadExclude opt) (VfsExcludeRegex opt).

(** A record with another glob list, used to compare runs of [Init]. *)
Definition set_VfsUploadExclude (opt : Options) (v : list string) : Options :=
  mkOptions
    (NoSeek opt) (NoChecksum opt) (ReadOnly opt) (NoModTime opt)
    (DirCacheTime opt) (PollInterval opt) (Umask opt) (UID opt) (GID opt)
    (DirPerms opt) (FilePerms opt)
    (ChunkSize opt) (ChunkSizeLimit opt) (CacheMode_ opt) (CacheMaxAge opt)
    (CacheMaxSize opt) (CacheMinFreeSpace opt) (CachePollInterval opt)
    (CaseInsensitive opt) (WriteWait opt) (ReadWait opt) (WriteBack opt)
    (ReadAhead opt) (UsedIsSize opt) (FastFingerprint opt)
    (DiskSpaceTotalSize opt) v (VfsExcludeRegex opt).

(** The record [Init] hands to the loop. *)
Definition masked (opt : Options) : Options :=
  let opt := set_DirPerms opt
    (Z.land (DirPerms opt) (Go.not32 (os.FileMode_of_int (Umask opt)))) in
  let opt := set_FilePerms opt
    (Z.land (FilePerms opt) (Go.not32 (os.FileMode_of_int (Umask opt)))) in
  set_DirPerms opt (Z.lor (DirPerms opt) os.ModeDir).

(** The values a Go [uint32] can hold. *)
Definition is_uint32 (z : Z) : Prop := 0 <= z < 2 ^ 32.

(** [n] calls of [Init] in a row on the same record. *)
Fixpoint Init_n (n : nat) (opt : Options) : M Options :=
  match n with
  | O => ret opt
  | S k => opt1 <- Init opt ;; Init_n k opt1
  end.

(** ** Bit-level facts about the permission arithmetic *)

Lemma not32_testbit (x : Z) (n : Z) :
  Z.testbit (Go.not32 (Go.uint32 x)) n
  = (0 <=? n) && (n <? 32) && negb (Z.testbit x n).
Proof.
  unfold Go.not32, Go.uint32.
  destruct (Z.leb_spec 0 n) as [Hn | Hn].
  - destruct (Z.ltb_spec n 32) as [Hlt | Hge].
    + rewrite Z.mod_pow2_bits_low by lia.
      rewrite Z.lnot_spec by lia.
      rewrite Z.mod_pow2_bits_low by lia. reflexivity.
    + rewrite Z.mod_pow2_bits_high by lia. reflexivity.
  - rewrite Z.testbit_neg_r by lia. reflexivity.
Qed.

Lemma lor_land_same (x m : Z) : Z.land (Z.lor x m) m = m.
Proof.
  apply Z.bits_inj'. intros n _.
  rewrite Z.land_spec, Z.lor_spec.
  destruct (Z.testbit x n), (Z.testbit m n); reflexivity.
Qed.

Lemma mask_mark_twice (x k m : Z) :
  Z.lor (Z.land (Z.lor (Z.land x k) m) k) m = Z.lor (Z.land x k) m.
Proof.
  apply Z.bits_inj'. intros n _.
  rewrite !Z.lor_spec, !Z.land_spec, !Z.lor_spec, !Z.land_spec.
  destruct (Z.testbit x n), (Z.testbit k n), (Z.testbit m n); reflexivity.
Qed.

Lemma mask_twice (x k : Z) : Z.land (Z.land x k) k = Z.land x k.
Proof.
  rewrite <- Z.land_assoc, Z.land_diag. reflexivity.
Qed.

(** ** The loop, in closed form *)

Lemma set_VfsExcludeRegex_same (opt : Options) :
  set_VfsExcludeRegex opt (VfsExcludeRegex opt) = opt.
Proof. destruct opt; reflexivity. Qed.

Lemma set_VfsExcludeRegex_twice (opt : Options) (a b : list Regexp) :
  set_VfsExcludeRegex (set_VfsExcludeRegex opt a) b = set_VfsExcludeRegex opt b.
Proof. reflexivity. Qed.

Lemma range_VfsUploadExclude_eq (patterns : list string) :
  forall (opt : Options) (tr : list event),
    range_VfsUploadExclude patterns opt tr
    = (set_VfsExcludeRegex opt
         (VfsExcludeRegex opt ++ flat_map compiled patterns),
       tr ++ flat_map calls_for patterns).
Proof.
  induction patterns as [| pattern rest IH]; intros opt tr; simpl.
  - rewrite !app_nil_r, set_VfsExcludeRegex_same. reflexivity.
  - unfold bind, filter_GlobToRegexp, fs_Errorf, compiled, calls_for.
    destruct (GlobToRegexp pattern true) as [regexPattern | err]; simpl.
    + rewrite IH. simpl. rewrite <- !app_assoc. reflexivity.
    + rewrite IH. simpl. rewrite <- !app_assoc. reflexivity.
Qed.

Lemma Init_eq (opt : Options) (tr : list event) :
  Init opt tr
  = (set_VfsExcludeRegex (masked opt)
       (VfsExcludeRegex opt ++ flat_map compiled (VfsUploadExclude opt)),
     tr ++ flat_map calls_for (VfsUploadExclude opt)).
Proof.
  unfold Init, initializeExclusionPatterns.
  rewrite range_VfsUploadExclude_eq. reflexivity.
Qed.

Lemma emitted_Init (opt : Options) (tr : list event) :
  emitted (Init opt) tr = flat_map calls_for (VfsUploadExclude opt).
Proof.
  unfold emitted. rewrite Init_eq. simpl.
  rewrite skipn_app, skipn_all, Nat.sub_diag. reflexivity.
Qed.

Lemma result_of_Init (opt : Options) (tr : list event) :
  result_of (Init opt) tr
  = set_VfsExcludeRegex (masked opt)
      (VfsExcludeRegex opt ++ flat_map compiled (VfsUploadExclude opt)).
Proof. unfold result_of. rewrite Init_eq. reflexivity. Qed.

(** ** Permission bits *)

(** C1. For every record and every umask, after [Init] the directory
    permission bits carry the is-directory marker:
    [DirPerms AND ModeDir == ModeDir], whatever the umask step left. *)
Theorem Init_DirPerms_has_ModeDir (opt : Options) (tr : list event) :
  Z.land (DirPerms (result_of (Init opt) tr)) os.ModeDir = os.ModeDir.
Proof.
  rewrite result_of_Init. simpl. apply lor_land_same.
Qed.

(** C2. For every record, [Init] sets the file permission bits to the old
    file permission bits AND the complement of the umask (no marker is
    OR-ed into them), so every bit set in the umask is clear afterwards;
    with umask 0022, directory bits 0777 and file bits 0666 the result is
    directory bits 0755 plus the directory marker, and file bits 0644. *)
Theorem Init_FilePerms_masked (opt : Options) (tr : list event) :
  FilePerms (result_of (Init opt) tr)
  = Z.land (FilePerms opt) (Go.not32 (os.FileMode_of_int (Umask opt)))
  /\ (forall n : Z,
        Z.testbit (Umask opt) n
        && Z.testbit (FilePerms (result_of (Init opt) tr)) n = false)
  /\ (Umask opt = oct [0; 0; 2; 2] ->
      DirPerms opt = oct [0; 7; 7; 7] ->
      FilePerms opt = oct [0; 6; 6; 6] ->
      DirPerms (result_of (Init opt) tr) = Z.lor (oct [0; 7; 5; 5]) os.ModeDir
      /\ FilePerms (result_of (Init opt) tr) = oct [0; 6; 4; 4]).
Proof.
  rewrite result_of_Init. simpl. split; [reflexivity | split].
  - intros n. unfold os.FileMode_of_int.
    rewrite Z.land_spec, not32_testbit.
    destruct (Z.testbit (Umask opt) n); simpl; [| reflexivity].
    rewrite !andb_false_r. reflexivity.
  - intros Hu Hd Hf. rewrite Hu, Hd, Hf. split; reflexivity.
Qed.

(** ** Exclusion patterns *)

Lemma compiled_all (globs : list string) :
  Forall (fun glob => compiles glob = true) globs ->
  Forall2 (fun glob re => GlobToRegexp glob true = inl re)
    globs (flat_map compiled globs).
Proof.
  induction 1 as [| glob rest Hglob _ IH]; simpl; [constructor |].
  unfold compiles in Hglob. unfold compiled at 1.
  destruct (GlobToRegexp glob true) as [re | err] eqn:E; [| discriminate].
  simpl. constructor; [exact E | exact IH].
Qed.

Lemma compiled_rejected (glob : string) (err : error) :
  GlobToRegexp glob true = inr err -> compiled glob = [].
Proof. intros E. unfold compiled. rewrite E. reflexivity. Qed.

Lemma translator_calls_app (a b : list event) :
  translator_calls (a ++ b) = translator_calls a ++ translator_calls b.
Proof.
  induction a as [| [glob flag | o format arg] a IH]; simpl;
    [reflexivity | f_equal; exact IH | exact IH].
Qed.

Lemma diagnostics_app (a b : list event) :
  diagnostics (a ++ b) = diagnostics a ++ diagnostics b.
Proof.
  induction a as [| [glob flag | o format arg] a IH]; simpl;
    [reflexivity | exact IH | f_equal; exact IH].
Qed.

Lemma translator_calls_for (globs : list string) :
  translator_calls (flat_map calls_for globs)
  = map (fun glob => (glob, true)) globs.
Proof.
  induction globs as [| glob rest IH]; simpl; [reflexivity |].
  f_equal. rewrite translator_calls_app, IH.
  destruct (GlobToRegexp glob true); reflexivity.
Qed.

Lemma diagnostics_compiled (globs : list string) :
  Forall (fun glob => compiles glob = true) globs ->
  diagnostics (flat_map calls_for globs) = [].
Proof.
  induction 1 as [| glob rest Hglob _ IH]; simpl; [reflexivity |].
  rewrite diagnostics_app, IH. unfold compiles in Hglob.
  destruct (GlobToRegexp glob true); [reflexivity | discriminate].
Qed.

(** C3. For every record whose pattern list starts empty and whose globs
    all compile, after [Init] the pattern list is as long as the glob
    list, and its entry at each position is the compiled matcher of the
    glob at that position. *)
Theorem Init_compiles_every_glob (opt : Options) (tr : list event) :
  VfsExcludeRegex opt = [] ->
  Forall (fun glob => compiles glob = true) (VfsUploadExclude opt) ->
  List.length (VfsExcludeRegex (result_of (Init opt) tr))
  = List.length (VfsUploadExclude opt)
  /\ Forall2 (fun glob re => GlobToRegexp glob true = inl re)
       (VfsUploadExclude opt) (VfsExcludeRegex (result_of (Init opt) tr)).
Proof.
  intros Hempty Hall. rewrite result_of_Init. simpl. rewrite Hempty. simpl.
  pose proof (compiled_all _ Hall) as H2.
  split; [symmetry; exact (Forall2_length H2) | exact H2].
Qed.

Lemma diagnostics_rejected (glob : string) (err : error) :
  GlobToRegexp glob true = inr err ->
  diagnostics (calls_for glob) = [(glob, errorf_format, err)].
Proof. intros E. unfold calls_for. rewrite E. reflexivity. Qed.

Lemma set_VfsUploadExclude_masked (opt : Options) (globs : list string) :
  masked (set_VfsUploadExclude opt globs)
  = set_VfsUploadExclude (masked opt) globs.
Proof. reflexivity. Qed.

(** C4. For every glob list with exactly one malformed entry among
    well-formed ones, [Init] drops only that entry: what it appends is one
    shorter than the glob list (so is the whole pattern list when it
    starts empty) and holds the matchers of the well-formed globs in their
    order; it emits exactly one diagnostic, naming the malformed glob and
    the translator's error; it still passes every glob, also those after
    the malformed one, to the translator; and the record the caller gets
    back is the one a run without the malformed glob produces, the glob
    list itself apart: nothing in it signals the failure. *)
Theorem Init_skips_malformed_glob (opt : Options) (tr : list event)
    (pre post : list string) (bad : string) (err : error) :
  VfsUploadExclude opt = pre ++ bad :: post ->
  Forall (fun glob => compiles glob = true) pre ->
  Forall (fun glob => compiles glob = true) post ->
  GlobToRegexp bad true = inr err ->
  (exists news : list Regexp,
     VfsExcludeRegex (result_of (Init opt) tr) = VfsExcludeRegex opt ++ news
     /\ List.length news = (List.length (VfsUploadExclude opt) - 1)%nat
     /\ Forall2 (fun glob re => GlobToRegexp glob true = inl re)
          (pre ++ post) news)
  /\ (VfsExcludeRegex opt = [] ->
      List.length (VfsExcludeRegex (result_of (Init opt) tr))
      = (List.length (VfsUploadExclude opt) - 1)%nat)
  /\ diagnostics (emitted (Init opt) tr) = [(bad, errorf_format, err)]
  /\ translator_calls (emitted (Init opt) tr)
     = map (fun glob => (glob, true)) (pre ++ bad :: post)
  /\ result_of (Init opt) tr
     = set_VfsUploadExclude
         (result_of (Init (set_VfsUploadExclude opt (pre ++ post))) tr)
         (VfsUploadExclude opt).
Proof.
  intros Hglobs Hpre Hpost Hbad.
  assert (Hnews : flat_map compiled (VfsUploadExclude opt)
                  = flat_map compiled (pre ++ post)).
  { rewrite Hglobs, !flat_map_app. simpl.
    rewrite (compiled_rejected _ _ Hbad). reflexivity. }
  assert (Hall : Forall (fun glob => compiles glob = true) (pre ++ post)).
  { apply Forall_app. split; assumption. }
  pose proof (compiled_all _ Hall) as H2.
  assert (Hlen : List.length (flat_map compiled (pre ++ post))
                 = (List.length (VfsUploadExclude opt) - 1)%nat).
  { rewrite <- (Forall2_length H2), Hglobs, !length_app. simpl. lia. }
  rewrite !result_of_Init, emitted_Init, translator_calls_for. simpl.
  rewrite Hnews.
  split; [| split; [| split; [| split]]].
  - exists (flat_map compiled (pre ++ post)).
    split; [reflexivity | split; assumption].
  - intros Hempty. rewrite Hempty. exact Hlen.
  - rewrite Hglobs, flat_map_app, diagnostics_app. cbn [flat_map].
    rewrite diagnostics_app, (diagnostics_compiled _ Hpre),
      (diagnostics_compiled _ Hpost), (diagnostics_rejected _ _ Hbad).
    reflexivity.
  - rewrite Hglobs. reflexivity.
  - destruct opt; reflexivity.
Qed.


(** C10. When the pattern list is not empty before [Init] is called,
    [Init] neither clears nor checks it: the entries already there stay
    where they are and the newly compiled patterns follow them. *)
Theorem Init_keeps_existing_patterns (opt : Options) (tr : list event) :
  VfsExcludeRegex (result_of (Init opt) tr)
  = VfsExcludeRegex opt ++ flat_map compiled (VfsUploadExclude opt)
  /\ firstn (List.length (VfsExcludeRegex opt))
       (VfsExcludeRegex (result_of (Init opt) tr))
     = VfsExcludeRegex opt.
Proof.
  rewrite result_of_Init. simpl. split; [reflexivity |].
  rewrite firstn_app, Nat.sub_diag, firstn_all. simpl. apply app_nil_r.
Qed.

Lemma compiled_some (globs : list string) :
  existsb compiles globs = true -> flat_map compiled globs <> [].
Proof.
  induction globs as [| glob rest IH]; simpl; [discriminate |].
  unfold compiles at 1, compiled at 1.
  destruct (GlobToRegexp glob true); simpl; [discriminate | exact IH].
Qed.

Lemma result_of_Init_twice (opt : Options) (tr : list event) :
  result_of (Init_twice opt) tr
  = result_of (Init (result_of (Init opt) tr))
      (tr ++ emitted (Init opt) tr).
Proof.
  unfold Init_twice, bind, result_of. rewrite emitted_Init.
  rewrite (Init_eq opt tr). reflexivity.
Qed.

(** C8. A second [Init] on the output of the first leaves the directory
    and file permission bits as they are, and appends every compiled glob
    pattern once more, so the number of appended patterns doubles; for a
    record that starts with no patterns, whether or not all its globs
    compile, the pattern list after two calls is exactly twice as long as
    after one.  [Init] is therefore not idempotent: as soon as
    one glob compiles, the second call changes the record. *)
Theorem Init_twice_appends_again (opt : Options) (tr : list event) :
  DirPerms (result_of (Init_twice opt) tr)
  = DirPerms (result_of (Init opt) tr)
  /\ FilePerms (result_of (Init_twice opt) tr)
     = FilePerms (result_of (Init opt) tr)
  /\ VfsExcludeRegex (result_of (Init_twice opt) tr)
     = VfsExcludeRegex (result_of (Init opt) tr)
       ++ flat_map compiled (VfsUploadExclude opt)
  /\ (List.length (VfsExcludeRegex (result_of (Init_twice opt) tr))
      + List.length (VfsExcludeRegex opt))%nat
     = (2 * List.length (VfsExcludeRegex (result_of (Init opt) tr)))%nat
  /\ (VfsExcludeRegex opt = [] ->
      List.length (VfsExcludeRegex (result_of (Init_twice opt) tr))
      = (2 * List.length (VfsExcludeRegex (result_of (Init opt) tr)))%nat)
  /\ (existsb compiles (VfsUploadExclude opt) = true ->
      result_of (Init_twice opt) tr <> result_of (Init opt) tr).
Proof.
  rewrite result_of_Init_twice, !result_of_Init. simpl.
  split; [apply mask_mark_twice |].
  split; [apply mask_twice |].
  split; [reflexivity |].
  split; [rewrite !length_app; lia |].
  split.
  - intros Hempty. rewrite Hempty. simpl.
    rewrite length_app. lia.
  - intros Hsome Heq. apply (compiled_some _ Hsome).
    apply (f_equal VfsExcludeRegex) in Heq. simpl in Heq.
    apply (f_equal (@List.length Regexp)) in Heq.
    rewrite !length_app in Heq.
    apply length_zero_iff_nil. lia.
Qed.

(** ** Frame *)

(** C7. [Init] writes only the directory permission bits, the file
    permission bits and the compiled pattern list; every other field keeps
    its value, and so does the chunk size limit -1 of the default
    record. *)
Theorem Init_frame (opt : Options) (tr : list event) :
  NoSeek (result_of (Init opt) tr) = NoSeek opt
  /\ NoChecksum (result_of (Init opt) tr) = NoChecksum opt
  /\ ReadOnly (result_of (Init opt) tr) = ReadOnly opt
  /\ NoModTime (result_of (Init opt) tr) = NoModTime opt
  /\ DirCacheTime (result_of (Init opt) tr) = DirCacheTime opt
  /\ PollInterval (result_of (Init opt) tr) = PollInterval opt
  /\ Umask (result_of (Init opt) tr) = Umask opt
  /\ UID (result_of (Init opt) tr) = UID opt
  /\ GID (result_of (Init opt) tr) = GID opt
  /\ ChunkSize (result_of (Init opt) tr) = ChunkSize opt
  /\ ChunkSizeLimit (result_of (Init opt) tr) = ChunkSizeLimit opt
  /\ CacheMode_ (result_of (Init opt) tr) = CacheMode_ opt
  /\ CacheMaxAge (result_of (Init opt) tr) = CacheMaxAge opt
  /\ CacheMaxSize (result_of (Init opt) tr) = CacheMaxSize opt
  /\ CacheMinFreeSpace (result_of (Init opt) tr) = CacheMinFreeSpace opt
  /\ CachePollInterval (result_of (Init opt) tr) = CachePollInterval opt
  /\ CaseInsensitive (result_of (Init opt) tr) = CaseInsensitive opt
  /\ WriteWait (result_of (Init opt) tr) = WriteWait opt
  /\ ReadWait (result_of (Init opt) tr) = ReadWait opt
  /\ WriteBack (result_of (Init opt) tr) = WriteBack opt
  /\ ReadAhead (result_of (Init opt) tr) = ReadAhead opt
  /\ UsedIsSize (result_of (Init opt) tr) = UsedIsSize opt
  /\ FastFingerprint (result_of (Init opt) tr) = FastFingerprint opt
  /\ DiskSpaceTotalSize (result_of (Init opt) tr) = DiskSpaceTotalSize opt
  /\ VfsUploadExclude (result_of (Init opt) tr) = VfsUploadExclude opt
  /\ ChunkSizeLimit (result_of (Init DefaultOpt) tr) = -1.
Proof.
  rewrite !result_of_Init. simpl. repeat split; reflexivity.
Qed.

(** ** The default record *)

(** C9. The default record has -1 in the chunk size limit, the cache
    maximum size, the cache minimum free space and the disk space total
    size; the 32-bit value with every bit set in both uid and gid;
    directory bits 0777, file bits 0666 and umask 0. *)
Theorem DefaultOpt_sentinels :
  ChunkSizeLimit DefaultOpt = -1
  /\ CacheMaxSize DefaultOpt = -1
  /\ CacheMinFreeSpace DefaultOpt = -1
  /\ DiskSpaceTotalSize DefaultOpt = -1
  /\ UID DefaultOpt = Z.ones 32
  /\ GID DefaultOpt = Z.ones 32
  /\ DirPerms DefaultOpt = oct [0; 7; 7; 7]
  /\ FilePerms DefaultOpt = oct [0; 6; 6; 6]
  /\ Umask DefaultOpt = 0.
Proof. repeat split; reflexivity. Qed.

(** C6. The case-insensitivity field of the default record is computed
    from the host operating system identifier: it is true exactly on
    Windows and macOS ([windows], [darwin]) and false everywhere else. *)
Theorem DefaultOpt_CaseInsensitive :
  (CaseInsensitive DefaultOpt = true
   <-> GOOS = "windows"%string \/ GOOS = "darwin"%string)
  /\ (CaseInsensitive DefaultOpt = false
      <-> GOOS <> "windows"%string /\ GOOS <> "darwin"%string).
Proof.
  simpl. unfold Go.streq. split.
  - rewrite orb_true_iff, !String.eqb_eq. reflexivity.
  - rewrite orb_false_iff, !String.eqb_neq. reflexivity.
Qed.

(** ** Further properties of the permission step *)

Lemma uint32_testbit (x : Z) (n : Z) :
  Z.testbit (Go.uint32 x) n = (n <? 32) && Z.testbit x n.
Proof.
  unfold Go.uint32.
  destruct (Z.ltb_spec n 32) as [Hlt | Hge].
  - destruct (Z.leb_spec 0 n) as [Hn | Hn].
    + rewrite Z.mod_pow2_bits_low by lia. reflexivity.
    + rewrite !Z.testbit_neg_r by lia. reflexivity.
  - rewrite Z.mod_pow2_bits_high by lia. reflexivity.
Qed.

Lemma ModeDir_testbit (n : Z) : Z.testbit os.ModeDir n = (n =? 31).
Proof.
  change os.ModeDir with (2 ^ 31).
  rewrite Z.pow2_bits_eqb by lia. apply Z.eqb_sym.
Qed.

Lemma uint32_fixed_is_uint32 (z : Z) : Go.uint32 z = z -> is_uint32 z.
Proof.
  intros <-. unfold is_uint32, Go.uint32. apply Z.mod_pos_bound. lia.
Qed.

Lemma is_uint32_fixed (z : Z) : is_uint32 z -> Go.uint32 z = z.
Proof. intros H. unfold Go.uint32. apply Z.mod_small. exact H. Qed.

Lemma DirPerms_Init (opt : Options) (tr : list event) :
  DirPerms (result_of (Init opt) tr)
  = Z.lor (Z.land (DirPerms opt) (Go.not32 (Go.uint32 (Umask opt))))
      os.ModeDir.
Proof. rewrite result_of_Init. reflexivity. Qed.

Lemma FilePerms_Init (opt : Options) (tr : list event) :
  FilePerms (result_of (Init opt) tr)
  = Z.land (FilePerms opt) (Go.not32 (Go.uint32 (Umask opt))).
Proof. rewrite result_of_Init. reflexivity. Qed.

(** The bits of a permission value after the umask step. *)
Ltac perm_bits :=
  repeat first
    [ rewrite Z.lor_spec | rewrite Z.land_spec | rewrite uint32_testbit
    | rewrite not32_testbit | rewrite ModeDir_testbit ].

(** X1. After [Init] both permission fields hold a value of a Go
    [uint32], whatever integers the record held before: the masking never
    leaves the 32-bit range. *)
Theorem Init_perms_fit_uint32 (opt : Options) (tr : list event) :
  is_uint32 (DirPerms (result_of (Init opt) tr))
  /\ is_uint32 (FilePerms (result_of (Init opt) tr)).
Proof.
  rewrite DirPerms_Init, FilePerms_Init.
  split; apply uint32_fixed_is_uint32; apply Z.bits_inj'; intros n Hn;
    perm_bits;
    destruct (Z.ltb_spec n 32), (Z.leb_spec 0 n), (Z.eqb_spec n 31);
    try lia; simpl; rewrite ?andb_false_r; reflexivity.
Qed.

(** X2. [Init] grants nothing: every bit of the file permissions after
    [Init] was set before, and every bit of the directory permissions
    after [Init] was set before or is the directory marker. *)
Theorem Init_adds_no_permission (opt : Options) (tr : list event) :
  Z.land (FilePerms (result_of (Init opt) tr)) (FilePerms opt)
  = FilePerms (result_of (Init opt) tr)
  /\ Z.land (DirPerms (result_of (Init opt) tr))
       (Z.lor (DirPerms opt) os.ModeDir)
     = DirPerms (result_of (Init opt) tr).
Proof.
  rewrite DirPerms_Init, FilePerms_Init.
  split; apply Z.bits_inj'; intros n _;
    rewrite ?Z.land_spec, ?Z.lor_spec, ?Z.land_spec;
    destruct (Z.testbit (FilePerms opt) n), (Z.testbit (DirPerms opt) n),
      (Z.testbit (Go.not32 (Go.uint32 (Umask opt))) n),
      (Z.testbit os.ModeDir n); reflexivity.
Qed.

(** X3. In the directory permissions after [Init], the only bit of the
    umask that can be set is the directory marker (bit 31): every other
    bit the umask denies is clear, and a umask that denies bit 31 is
    overruled there. *)
Theorem Init_DirPerms_umask_bits (opt : Options) (tr : list event) (n : Z) :
  Z.testbit (Umask opt) n && Z.testbit (DirPerms (result_of (Init opt) tr)) n
  = Z.testbit (Umask opt) n && (n =? 31).
Proof.
  rewrite DirPerms_Init. perm_bits.
  destruct (Z.testbit (Umask opt) n); simpl; [| reflexivity].
  rewrite !andb_false_r. reflexivity.
Qed.

(** X4. A umask that shares no bit with a permission field leaves it as
    it is: for 32-bit permission values, the file permissions are
    unchanged and the directory permissions only gain the marker.  A
    umask of 0 is the common case. *)
Theorem Init_disjoint_umask_keeps_perms (opt : Options) (tr : list event) :
  (is_uint32 (FilePerms opt) ->
   Z.land (FilePerms opt) (Umask opt) = 0 ->
   FilePerms (result_of (Init opt) tr) = FilePerms opt)
  /\ (is_uint32 (DirPerms opt) ->
      Z.land (DirPerms opt) (Umask opt) = 0 ->
      DirPerms (result_of (Init opt) tr) = Z.lor (DirPerms opt) os.ModeDir).
Proof.
  rewrite DirPerms_Init, FilePerms_Init.
  split; intros Hfit Hdisj; apply Z.bits_inj'; intros n Hn;
    apply (f_equal (fun z => Z.testbit z n)) in Hdisj;
    rewrite Z.land_spec, Z.bits_0 in Hdisj;
    apply is_uint32_fixed in Hfit;
    apply (f_equal (fun z => Z.testbit z n)) in Hfit;
    rewrite uint32_testbit in Hfit;
    perm_bits;
    destruct (Z.ltb_spec n 32), (Z.leb_spec 0 n); try lia;
    simpl in *;
    [ destruct (Z.testbit (Umask opt) n); simpl;
      rewrite ?andb_true_r, ?andb_false_r in *; congruence
    | rewrite <- Hfit; reflexivity
    | destruct (Z.testbit (Umask opt) n); simpl;
      rewrite ?andb_true_r, ?andb_false_r in *; congruence
    | rewrite <- Hfit; reflexivity ].
Qed.

(** X5. Only the low 32 bits of the umask take part: adding any multiple
    of 2^32 to the umask changes nothing in the result but the umask
    field itself. *)
Theorem Init_umask_low_bits (opt : Options) (tr : list event) (k : Z) :
  result_of (Init (set_Umask opt (Umask opt + k * 2 ^ 32))) tr
  = set_Umask (result_of (Init opt) tr) (Umask opt + k * 2 ^ 32).
Proof.
  assert (E : Go.uint32 (Umask opt + k * 2 ^ 32) = Go.uint32 (Umask opt)).
  { unfold Go.uint32. apply Z.mod_add. lia. }
  rewrite !result_of_Init. unfold masked, os.FileMode_of_int.
  revert E. generalize (Umask opt + k * 2 ^ 32). intros u E.
  with_strategy opaque [Go.uint32] simpl. rewrite E. reflexivity.
Qed.

(** X6. Umasks compose by OR: [Init] under umask [u], then under umask
    [v], leaves the permission bits that a single [Init] under
    [u OR v] leaves. *)
Theorem Init_umasks_compose (opt : Options) (u v : Z)
    (tr1 tr2 tr3 : list event) :
  FilePerms
    (result_of
       (Init (set_Umask (result_of (Init (set_Umask opt u)) tr1) v)) tr2)
  = FilePerms (result_of (Init (set_Umask opt (Z.lor u v))) tr3)
  /\ DirPerms
       (result_of
          (Init (set_Umask (result_of (Init (set_Umask opt u)) tr1) v)) tr2)
     = DirPerms (result_of (Init (set_Umask opt (Z.lor u v))) tr3).
Proof.
  rewrite !DirPerms_Init, !FilePerms_Init. simpl.
  rewrite !DirPerms_Init, !FilePerms_Init. simpl.
  split; apply Z.bits_inj'; intros n _; perm_bits;
    destruct (Z.testbit (FilePerms opt) n), (Z.testbit (DirPerms opt) n),
      (Z.testbit u n), (Z.testbit v n), (0 <=? n), (n <? 32), (n =? 31);
    reflexivity.
Qed.

(** ** Further properties of the pattern loop *)

Lemma compiled_accepted (globs : list string) :
  Forall2 (fun glob re => GlobToRegexp glob true = inl re)
    (filter compiles globs) (flat_map compiled globs).
Proof.
  induction globs as [| glob rest IH]; simpl; [constructor |].
  unfold compiles at 1, compiled at 1.
  destruct (GlobToRegexp glob true) as [re | err] eqn:E; simpl;
    [constructor; [exact E | exact IH] | exact IH].
Qed.

Lemma diagnostics_of_rejected (globs : list string) :
  Forall2
    (fun glob d =>
       fst (fst d) = glob /\ snd (fst d) = errorf_format
       /\ GlobToRegexp glob true = inr (snd d))
    (filter (fun glob => negb (compiles glob)) globs)
    (diagnostics (flat_map calls_for globs)).
Proof.
  induction globs as [| glob rest IH]; simpl; [constructor |].
  rewrite diagnostics_app. unfold compiles at 1.
  destruct (GlobToRegexp glob true) as [re | err] eqn:E; simpl;
    [exact IH | constructor; [simpl; auto | exact IH]].
Qed.

Lemma pattern_or_diagnostic (globs : list string) :
  (List.length (flat_map compiled globs)
   + List.length (diagnostics (flat_map calls_for globs)))%nat
  = List.length globs.
Proof.
  induction globs as [| glob rest IH]; simpl; [reflexivity |].
  rewrite diagnostics_app, !length_app. unfold compiled at 1.
  destruct (GlobToRegexp glob true); simpl; lia.
Qed.

Lemma error_follows_call (globs : list string) :
  forall (pre post : list event) (o format : string) (arg : error),
    flat_map calls_for globs = pre ++ CallErrorf o format arg :: post ->
    exists pre' : list event,
      pre = pre' ++ [CallGlobToRegexp o true]
      /\ format = errorf_format /\ GlobToRegexp o true = inr arg.
Proof.
  induction globs as [| glob rest IH]; intros pre post o format arg H.
  - destruct pre; discriminate H.
  - cbn [flat_map] in H. unfold calls_for at 1 in H.
    destruct pre as [| e1 pre1]; [discriminate H |].
    injection H as <- H.
    destruct (GlobToRegexp glob true) as [re | err] eqn:E; simpl in H.
    + destruct (IH _ _ _ _ _ H) as [pre' [-> Hrest]].
      exists (CallGlobToRegexp glob true :: pre'). split; [reflexivity | exact Hrest].
    + destruct pre1 as [| e2 pre2].
      * injection H as <- <- <- _.
        exists []. split; [reflexivity | split; [reflexivity | exact E]].
      * injection H as <- H.
        destruct (IH _ _ _ _ _ H) as [pre' [-> Hrest]].
        exists (CallGlobToRegexp glob true
                  :: CallErrorf glob errorf_format err :: pre').
        split; [reflexivity | exact Hrest].
Qed.

Lemma masked_twice (opt : Options) : masked (masked opt) = masked opt.
Proof.
  unfold masked. with_strategy opaque [Go.not32 os.FileMode_of_int] simpl.
  rewrite mask_mark_twice, mask_twice. reflexivity.
Qed.

Lemma Init_n_eq (n : nat) :
  forall (opt : Options) (tr : list event),
    Init_n (S n) opt tr
    = (set_VfsExcludeRegex (masked opt)
         (VfsExcludeRegex opt
            ++ List.concat (repeat (flat_map compiled (VfsUploadExclude opt))
                         (S n))),
       tr ++ List.concat (repeat (flat_map calls_for (VfsUploadExclude opt))
                       (S n))).
Proof.
  induction n as [| n IH]; intros opt tr.
  - cbn [Init_n]. unfold bind, ret. rewrite Init_eq. simpl.
    rewrite !app_nil_r. reflexivity.
  - change (Init_n (S (S n)) opt tr)
      with (bind (Init opt) (fun opt1 => Init_n (S n) opt1) tr).
    unfold bind. rewrite Init_eq, IH.
    change (masked (set_VfsExcludeRegex (masked opt) ?l))
      with (set_VfsExcludeRegex (masked (masked opt)) l).
    rewrite masked_twice.
    change (VfsUploadExclude (set_VfsExcludeRegex (masked opt) ?l))
      with (VfsUploadExclude opt).
    change (VfsExcludeRegex (set_VfsExcludeRegex (masked opt) ?l)) with l.
    rewrite set_VfsExcludeRegex_twice, <- !app_assoc. reflexivity.
Qed.

(** X7. A record with no globs: [Init] makes no call to the translator
    or to the diagnostic sink and leaves the pattern list as it is. *)
Theorem Init_no_globs (opt : Options) (tr : list event) :
  VfsUploadExclude opt = [] ->
  emitted (Init opt) tr = []
  /\ VfsExcludeRegex (result_of (Init opt) tr) = VfsExcludeRegex opt.
Proof.
  intros Hnone. rewrite emitted_Init, result_of_Init, Hnone. simpl.
  split; [reflexivity | apply app_nil_r].
Qed.

(** X8. Every glob ends up as exactly one of a pattern or a diagnostic:
    the number of patterns [Init] appends plus the number of diagnostics
    it emits is the number of globs, for any mix of well-formed and
    malformed globs. *)
Theorem Init_pattern_or_diagnostic (opt : Options) (tr : list event) :
  (List.length (VfsExcludeRegex (result_of (Init opt) tr))
   + List.length (diagnostics (emitted (Init opt) tr)))%nat
  = (List.length (VfsExcludeRegex opt)
     + List.length (VfsUploadExclude opt))%nat.
Proof.
  rewrite emitted_Init, result_of_Init. simpl. rewrite length_app.
  pose proof (pattern_or_diagnostic (VfsUploadExclude opt)). lia.
Qed.

(** X9. For any glob list, what [Init] appends is, in order, the compiled
    matcher of each glob the translator accepts: malformed globs leave no
    gap and do not disturb the order, however many there are. *)
Theorem Init_patterns_of_accepted_globs (opt : Options) (tr : list event) :
  exists news : list Regexp,
    VfsExcludeRegex (result_of (Init opt) tr) = VfsExcludeRegex opt ++ news
    /\ Forall2 (fun glob re => GlobToRegexp glob true = inl re)
         (filter compiles (VfsUploadExclude opt)) news.
Proof.
  exists (flat_map compiled (VfsUploadExclude opt)).
  rewrite result_of_Init. split; [reflexivity | apply compiled_accepted].
Qed.

(** X10. For any glob list, the diagnostics [Init] emits are, in order,
    one per glob the translator rejects: each has that glob as its
    subject, the fixed message, and the error the translator returned
    for it. *)
Theorem Init_diagnostics_of_rejected_globs (opt : Options)
    (tr : list event) :
  Forall2
    (fun glob d =>
       fst (fst d) = glob /\ snd (fst d) = errorf_format
       /\ GlobToRegexp glob true = inr (snd d))
    (filter (fun glob => negb (compiles glob)) (VfsUploadExclude opt))
    (diagnostics (emitted (Init opt) tr)).
Proof. rewrite emitted_Init. apply diagnostics_of_rejected. Qed.

(** X11. In the calls [Init] makes, a diagnostic comes directly after
    the translator call for the glob it names, and that call returned
    the error it reports. *)
Theorem Init_diagnostic_follows_call (opt : Options) (tr : list event)
    (pre post : list event) (o format : string) (arg : error) :
  emitted (Init opt) tr = pre ++ CallErrorf o format arg :: post ->
  exists pre' : list event,
    pre = pre' ++ [CallGlobToRegexp o true]
    /\ format = errorf_format /\ GlobToRegexp o true = inr arg.
Proof. rewrite emitted_Init. apply error_follows_call. Qed.

(** X12. The loop works glob by glob: running
    [initializeExclusionPatterns] on a glob list [a ++ b] gives the
    record and the calls of running it on [a] and then, on the record so
    obtained, on [b]. *)
Theorem initializeExclusionPatterns_app (opt : Options) (a b : list string)
    (tr : list event) :
  initializeExclusionPatterns (set_VfsUploadExclude opt (a ++ b)) tr
  = (let (opt1, tr1) :=
       initializeExclusionPatterns (set_VfsUploadExclude opt a) tr in
     let (opt2, tr2) :=
       initializeExclusionPatterns (set_VfsUploadExclude opt1 b) tr1 in
     (set_VfsUploadExclude opt2 (a ++ b), tr2)).
Proof.
  unfold initializeExclusionPatterns. simpl.
  rewrite !range_VfsUploadExclude_eq. simpl.
  rewrite !flat_map_app, <- !app_assoc. reflexivity.
Qed.

(** X13. The permission step and the pattern step do not depend on each
    other: [initializeExclusionPatterns] alone leaves both permission
    fields as they are, and masking the permissions after it gives the
    record, and the calls, of [Init]. *)
Theorem Init_steps_commute (opt : Options) (tr : list event) :
  DirPerms (result_of (initializeExclusionPatterns opt) tr) = DirPerms opt
  /\ FilePerms (result_of (initializeExclusionPatterns opt) tr)
     = FilePerms opt
  /\ masked (result_of (initializeExclusionPatterns opt) tr)
     = result_of (Init opt) tr
  /\ emitted (initializeExclusionPatterns opt) tr = emitted (Init opt) tr.
Proof.
  rewrite emitted_Init, result_of_Init.
  unfold result_of, emitted, initializeExclusionPatterns.
  rewrite range_VfsUploadExclude_eq. simpl.
  rewrite skipn_app, skipn_all, Nat.sub_diag. simpl.
  repeat split; reflexivity.
Qed.

(** X14. A second [Init] makes every call of the first again, in the
    same order: each diagnostic is emitted twice. *)
Theorem Init_twice_emits_again (opt : Options) (tr : list event) :
  emitted (Init_twice opt) tr
  = emitted (Init opt) tr ++ emitted (Init opt) tr
  /\ diagnostics (emitted (Init_twice opt) tr)
     = diagnostics (emitted (Init opt) tr)
       ++ diagnostics (emitted (Init opt) tr).
Proof.
  assert (E : emitted (Init_twice opt) tr
              = emitted (Init opt) tr ++ emitted (Init opt) tr).
  { rewrite emitted_Init. unfold emitted, Init_twice, bind.
    rewrite (Init_eq opt tr), Init_eq. simpl.
    rewrite <- app_assoc, skipn_app, skipn_all, Nat.sub_diag.
    reflexivity. }
  split; [exact E | rewrite E; apply diagnostics_app].
Qed.

(** X15. Each further [Init] adds as many patterns as the first: after
    [n] calls the pattern list has grown by [n] times what one call
    adds, and from the first call on the permission fields no longer
    change. *)
Theorem Init_n_grows_linearly (n : nat) (opt : Options) (tr : list event) :
  (List.length (VfsExcludeRegex (result_of (Init_n n opt) tr))
   + n * List.length (VfsExcludeRegex opt))%nat
  = (List.length (VfsExcludeRegex opt)
     + n * List.length (VfsExcludeRegex (result_of (Init opt) tr)))%nat
  /\ DirPerms (result_of (Init_n (S n) opt) tr)
     = DirPerms (result_of (Init opt) tr)
  /\ FilePerms (result_of (Init_n (S n) opt) tr)
     = FilePerms (result_of (Init opt) tr).
Proof.
  split.
  - destruct n as [| n]; [unfold result_of at 1; simpl; lia |].
    unfold result_of at 1. rewrite Init_n_eq, result_of_Init.
    cbn [fst]. change (VfsExcludeRegex (set_VfsExcludeRegex ?o ?l)) with l.
    rewrite !length_app.
    generalize (flat_map compiled (VfsUploadExclude opt)). intros c.
    assert (E : forall k, List.length (List.concat (repeat c k))
                          = (k * List.length c)%nat).
    { induction k as [| k IHk]; simpl; [reflexivity |].
      rewrite length_app, IHk. reflexivity. }
    rewrite E. nia.
  - unfold result_of at 1 3. rewrite Init_n_eq, result_of_Init.
    split; reflexivity.
Qed.

End Options.

(** ** Concrete runs *)

Local Open Scope string_scope.

(** The three-glob scenario: two patterns, in order, and the calls made. *)
Example Init_scenario_patterns :
  VfsExcludeRegex
    (result_of
       (Init Sample.GlobToRegexp
          (set_VfsUploadExclude (DefaultOpt "linux" Sample.Mebi)
             ["*.tmp"; "["; "cache/**"]))
       [])
  = ["*.tmp"; "cache/**"].
Proof. reflexivity. Qed.

Example Init_scenario_calls :
  emitted
    (Init Sample.GlobToRegexp
       (set_VfsUploadExclude (DefaultOpt "linux" Sample.Mebi)
          ["*.tmp"; "["; "cache/**"]))
    []
  = [CallGlobToRegexp "*.tmp" true;
     CallGlobToRegexp "[" true;
     CallErrorf "[" errorf_format "missing closing bracket";
     CallGlobToRegexp "cache/**" true].
Proof. reflexivity. Qed.

(** A umask with every bit set strips all permission bits; the directory
    marker is still there. *)
Example Init_umask_all_ones :
  DirPerms
    (result_of
       (Init Sample.GlobToRegexp
          (set_Umask (DefaultOpt "linux" Sample.Mebi) (-1)))
       [])
  = os.ModeDir
  /\ FilePerms
       (result_of
          (Init Sample.GlobToRegexp
             (set_Umask (DefaultOpt "linux" Sample.Mebi) (-1)))
          [])
     = 0.
Proof. split; reflexivity. Qed.


Lemma Init_FilePerms_masked_witness :
  DirPerms
    (result_of
       (Init Sample.GlobToRegexp
          (set_Umask (DefaultOpt "linux" Sample.Mebi) (oct [0; 0; 2; 2])))
       [])
  = Z.lor (oct [0; 7; 5; 5]) os.ModeDir
  /\ FilePerms
       (result_of
          (Init Sample.GlobToRegexp
             (set_Umask (DefaultOpt "linux" Sample.Mebi) (oct [0; 0; 2; 2])))
          [])
     = oct [0; 6; 4; 4].
Proof.
  apply (Init_FilePerms_masked Sample.GlobToRegexp
           (set_Umask (DefaultOpt "linux" Sample.Mebi) (oct [0; 0; 2; 2])) []);
    reflexivity.
Defined.

Lemma Init_compiles_every_glob_witness :
  List.length
    (VfsExcludeRegex
       (result_of
          (Init Sample.GlobToRegexp
             (set_VfsUploadExclude (DefaultOpt "linux" Sample.Mebi)
                ["*.tmp"; "cache/**"]))
          []))
  = 2%nat
  /\ Forall2 (fun glob re => Sample.GlobToRegexp glob true = inl re)
       ["*.tmp"; "cache/**"]
       (VfsExcludeRegex
          (result_of
             (Init Sample.GlobToRegexp
                (set_VfsUploadExclude (DefaultOpt "linux" Sample.Mebi)
                   ["*.tmp"; "cache/**"]))
             [])).
Proof.
  apply (Init_compiles_every_glob Sample.GlobToRegexp
           (set_VfsUploadExclude (DefaultOpt "linux" Sample.Mebi)
              ["*.tmp"; "cache/**"]) []).
  - reflexivity.
  - repeat constructor.
Defined.

Lemma Init_skips_malformed_glob_witness :
  List.length
    (VfsExcludeRegex
       (result_of
          (Init Sample.GlobToRegexp
             (set_VfsUploadExclude (DefaultOpt "linux" Sample.Mebi)
                ["*.tmp"; "["; "cache/**"]))
          []))
  = 2%nat
  /\ diagnostics
       (emitted
          (Init Sample.GlobToRegexp
             (set_VfsUploadExclude (DefaultOpt "linux" Sample.Mebi)
                ["*.tmp"; "["; "cache/**"]))
          [])
     = [("[", errorf_format, "missing closing bracket")].
Proof.
  destruct (Init_skips_malformed_glob Sample.GlobToRegexp
              (set_VfsUploadExclude (DefaultOpt "linux" Sample.Mebi)
                 ["*.tmp"; "["; "cache/**"])
              [] ["*.tmp"] ["cache/**"] "[" "missing closing bracket")
    as [_ [Hlen [Hdiag _]]].
  - reflexivity.
  - repeat constructor.
  - repeat constructor.
  - reflexivity.
  - split; [exact (Hlen eq_refl) | exact Hdiag].
Defined.

Lemma Init_twice_appends_again_witness :
  List.length
    (VfsExcludeRegex
       (result_of
          (Init_twice Sample.GlobToRegexp
             (set_VfsUploadExclude (DefaultOpt "linux" Sample.Mebi)
                ["*.tmp"; "cache/**"]))
          []))
  = 4%nat
  /\ result_of
       (Init_twice Sample.GlobToRegexp
          (set_VfsUploadExclude (DefaultOpt "linux" Sample.Mebi)
             ["*.tmp"; "cache/**"]))
       []
     <> result_of
          (Init Sample.GlobToRegexp
             (set_VfsUploadExclude (DefaultOpt "linux" Sample.Mebi)
                ["*.tmp"; "cache/**"]))
          [].
Proof.
  destruct (Init_twice_appends_again Sample.GlobToRegexp
              (set_VfsUploadExclude (DefaultOpt "linux" Sample.Mebi)
                 ["*.tmp"; "cache/**"]) [])
    as [_ [_ [_ [_ [Hlen Hneq]]]]].
  split; [exact (Hlen eq_refl) | exact (Hneq eq_refl)].
Defined.

Lemma DefaultOpt_CaseInsensitive_witness :
  CaseInsensitive (@DefaultOpt string "windows" Sample.Mebi) = true
  /\ CaseInsensitive (@DefaultOpt string "darwin" Sample.Mebi) = true
  /\ CaseInsensitive (@DefaultOpt string "linux" Sample.Mebi) = false.
Proof.
  split; [| split].
  - apply (DefaultOpt_CaseInsensitive (Regexp := string)). left. reflexivity.
  - apply (DefaultOpt_CaseInsensitive (Regexp := string)). right. reflexivity.
  - apply (DefaultOpt_CaseInsensitive (Regexp := string)).
    split; discriminate.
Defined.

Lemma Init_disjoint_umask_keeps_perms_witness :
  FilePerms
    (result_of
       (Init Sample.GlobToRegexp
          (set_Umask (DefaultOpt "linux" Sample.Mebi) (oct [7; 0; 0; 0])))
       [])
  = oct [0; 6; 6; 6]
  /\ DirPerms
       (result_of
          (Init Sample.GlobToRegexp
             (set_Umask (DefaultOpt "linux" Sample.Mebi) (oct [7; 0; 0; 0])))
          [])
     = Z.lor (oct [0; 7; 7; 7]) os.ModeDir.
Proof.
  destruct (Init_disjoint_umask_keeps_perms Sample.GlobToRegexp
              (set_Umask (DefaultOpt "linux" Sample.Mebi) (oct [7; 0; 0; 0]))
              [])
    as [Hfile Hdir].
  split.
  - apply Hfile; [| reflexivity].
    unfold is_uint32. vm_compute. split; [discriminate | reflexivity].
  - apply Hdir; [| reflexivity].
    unfold is_uint32. vm_compute. split; [discriminate | reflexivity].
Defined.

Lemma Init_no_globs_witness :
  emitted (Init Sample.GlobToRegexp (DefaultOpt "linux" Sample.Mebi)) [] = []
  /\ VfsExcludeRegex
       (result_of (Init Sample.GlobToRegexp (DefaultOpt "linux" Sample.Mebi))
          [])
     = [].
Proof.
  apply (Init_no_globs Sample.GlobToRegexp (DefaultOpt "linux" Sample.Mebi) []).
  reflexivity.
Defined.

Lemma Init_diagnostic_follows_call_witness :
  exists pre' : list (@event string),
    [CallGlobToRegexp "*.tmp" true; CallGlobToRegexp "[" true]
    = (pre' ++ [CallGlobToRegexp "[" true])%list
    /\ errorf_format = errorf_format
    /\ Sample.GlobToRegexp "[" true = inr "missing closing bracket".
Proof.
  apply (Init_diagnostic_follows_call Sample.GlobToRegexp
           (set_VfsUploadExclude (DefaultOpt "linux" Sample.Mebi)
              ["*.tmp"; "["; "cache/**"])
           []
           [CallGlobToRegexp "*.tmp" true; CallGlobToRegexp "[" true]
           [CallGlobToRegexp "cache/**" true]
           "[" errorf_format "missing closing bracket").
  reflexivity.
Defined.
